(** * The base auth manager of Airflow, embedded and verified

    Shallow embedding of [airflow/auth/managers/base_auth_manager.py]:
    the abstract class [BaseAuthManager] becomes a type class whose
    fields are the abstract methods; the methods with a body become
    definitions in a small state-and-exception monad.  The state records
    every call made to an abstract authorization predicate and every
    record sent to the logger, so that statements such as "no per-id
    check is performed" or "the error is logged first" can be stated. *)

From stdpp Require Import gmap strings list.
From Stdlib Require Import ZArith.

Open Scope string_scope.
Open Scope list_scope.

(** ** Data model *)

(** [ResourceMethod = Literal["GET", "POST", "PUT", "DELETE", "MENU"]]. *)
Inductive ResourceMethod : Type := GET | POST | PUT | DELETE | MENU.

#[global] Instance ResourceMethod_eq_dec : EqDecision ResourceMethod.
Proof. solve_decision. Defined.

(** [DagDetails(id=dag_id)], as built in [filter_permitted_dag_ids]. *)
Record DagDetails : Type := mkDagDetails { id : string }.

(** Values of a serialized user: [dict[str, Any]] restricted to the
    primitive values a token can carry. *)
Inductive prim : Type :=
| PStr (s : string)
| PInt (z : Z)
| PBool (b : bool)
| PNone.

Abbreviation payload := (gmap string prim).

(** Python exceptions: [AirflowException] is the one this class raises;
    [OtherException] stands for whatever a collaborator (the database
    session, the configuration) raises, by class name and message. *)
Inductive exn : Type :=
| AirflowException (message : string)
| OtherException (cls message : string).

(** Logging levels of [self.log]. *)
Inductive log_level : Type := LOG_DEBUG | LOG_INFO | LOG_WARNING | LOG_ERROR.

Record log_record : Type := mkLog { lvl : log_level; msg : string }.

(** ** The abstract interface

    The [@abstractmethod]s of [BaseAuthManager], with [BaseUser]'s
    [get_id] and [get_name] and the truth value [user_bool] of a user
    object ([bool(user)]: true unless the user class defines [__bool__]
    or [__len__] otherwise).  The resource-detail types other than
    [DagDetails] are opaque to the base class and are left abstract.
    An authorization predicate receives [user = None] when the caller
    gives no user: the backend then uses the user in session. *)
Class BaseAuthManager : Type := {
  T : Type;
  get_id : T -> string;
  get_name : T -> string;
  user_bool : T -> bool;
  ConnectionDetails : Type;
  DagAccessEntity : Type;
  PoolDetails : Type;
  VariableDetails : Type;
  get_user : option T;
  deserialize_user : payload -> T;
  serialize_user : T -> payload;
  is_authorized_connection :
    ResourceMethod -> option ConnectionDetails -> option T -> bool;
  is_authorized_dag :
    ResourceMethod -> option DagAccessEntity -> option DagDetails ->
    option T -> bool;
  is_authorized_pool :
    ResourceMethod -> option PoolDetails -> option T -> bool;
  is_authorized_variable :
    ResourceMethod -> option VariableDetails -> option T -> bool;
}.

(** Modelled from the spec: the request dictionaries of
    [airflow.auth.managers.models.batch_apis], which the module only
    imports for type checking.  A request is the tuple (method, optional
    resource details, optional access entity for a Dag, optional
    identity override); [request["method"]] reads [method] and
    [request.get(k)] reads an optional field. *)
Record IsAuthorizedConnectionRequest `{BaseAuthManager} : Type :=
  mkConnectionRequest {
    conn_method : ResourceMethod;
    conn_details : option ConnectionDetails;
    conn_user : option T }.

Record IsAuthorizedDagRequest `{BaseAuthManager} : Type :=
  mkDagRequest {
    dag_method : ResourceMethod;
    dag_access_entity : option DagAccessEntity;
    dag_details : option DagDetails;
    dag_user : option T }.

Record IsAuthorizedPoolRequest `{BaseAuthManager} : Type :=
  mkPoolRequest {
    pool_method : ResourceMethod;
    pool_details : option PoolDetails;
    pool_user : option T }.

Record IsAuthorizedVariableRequest `{BaseAuthManager} : Type :=
  mkVariableRequest {
    var_method : ResourceMethod;
    var_details : option VariableDetails;
    var_user : option T }.

Arguments mkConnectionRequest {_} _ _ _.
Arguments mkDagRequest {_} _ _ _ _.
Arguments mkPoolRequest {_} _ _ _.
Arguments mkVariableRequest {_} _ _ _.

(** ** Effects *)

(** One entry per call of an abstract authorization predicate, with the
    keyword arguments it was given. *)
Inductive call `{BaseAuthManager} : Type :=
| CallConnection (method : ResourceMethod)
    (details : option ConnectionDetails) (user : option T)
| CallDag (method : ResourceMethod) (access_entity : option DagAccessEntity)
    (details : option DagDetails) (user : option T)
| CallPool (method : ResourceMethod)
    (details : option PoolDetails) (user : option T)
| CallVariable (method : ResourceMethod)
    (details : option VariableDetails) (user : option T).

Arguments CallConnection {_} _ _ _.
Arguments CallDag {_} _ _ _ _.
Arguments CallPool {_} _ _ _.
Arguments CallVariable {_} _ _ _.

Record world `{BaseAuthManager} : Type :=
  mkWorld { calls : list call; logged : list log_record }.

Arguments mkWorld {_} _ _.

Inductive outcome (A : Type) : Type :=
| Return (a : A)
| Raise (e : exn).
Arguments Return {A} a.
Arguments Raise {A} e.

Definition M `{BaseAuthManager} (A : Type) : Type :=
  world -> outcome A * world.

Section Monad.
Context `{BaseAuthManager}.

Definition ret {A} (a : A) : M A := fun w => (Return a, w).

Definition raise {A} (e : exn) : M A := fun w => (Raise e, w).

Definition bind {A B} (m : M A) (k : A -> M B) : M B :=
  fun w =>
    match m w with
    | (Return a, w') => k a w'
    | (Raise e, w') => (Raise e, w')
    end.

Definition lift {A} (o : outcome A) : M A := fun w => (o, w).

Definition record_call (c : call) : M unit :=
  fun w => (Return tt, mkWorld (calls w ++ [c]) (logged w)).

(** [self.log.error(msg)] *)
Definition log_error (s : string) : M unit :=
  fun w => (Return tt, mkWorld (calls w) (logged w ++ [mkLog LOG_ERROR s])).

Definition value {A} (m : M A) (w : world) : outcome A := fst (m w).
Definition final {A} (m : M A) (w : world) : world := snd (m w).
End Monad.

#[global] Instance M_ret `{BaseAuthManager} : MRet M := @ret _.
#[global] Instance M_bind `{BaseAuthManager} : MBind M :=
  fun A B k m => bind m k.

Section Manager.
Context `{BaseAuthManager}.

(** Calls of the abstract predicates: the answer is the backend's, and
    the call is recorded. *)
Definition call_is_authorized_connection method details user : M bool :=
  record_call (CallConnection method details user) ;;
  ret (is_authorized_connection method details user).

Definition call_is_authorized_dag method access_entity details user : M bool :=
  record_call (CallDag method access_entity details user) ;;
  ret (is_authorized_dag method access_entity details user).

Definition call_is_authorized_pool method details user : M bool :=
  record_call (CallPool method details user) ;;
  ret (is_authorized_pool method details user).

Definition call_is_authorized_variable method details user : M bool :=
  record_call (CallVariable method details user) ;;
  ret (is_authorized_variable method details user).

(** Python's [a and b] and [a or b]: the right operand is evaluated
    only when the left one does not decide. *)
Definition py_and (a b : M bool) : M bool :=
  x ← a; if x : bool then b else ret false.

Definition py_or (a b : M bool) : M bool :=
  x ← a; if x : bool then ret true else b.

(** [all(f(x) for x in xs)]: stops at the first false. *)
Fixpoint py_all {A} (f : A -> M bool) (xs : list A) : M bool :=
  match xs with
  | [] => ret true
  | x :: xs' => b ← f x; if b : bool then py_all f xs' else ret false
  end.

(** [{x for x in xs if f(x)}], over the elements in iteration order. *)
Fixpoint py_set_if (f : string -> M bool) (xs : list string)
  : M (gset string) :=
  match xs with
  | [] => ret ∅
  | x :: xs' =>
      b ← f x;
      rest ← py_set_if f xs';
      ret (if b : bool then {[x]} ∪ rest else rest)
  end.

(** *** Batch checks *)

Definition batch_is_authorized_connection
    (requests : list IsAuthorizedConnectionRequest) : M bool :=
  py_all (fun request =>
            call_is_authorized_connection
              (conn_method request) (conn_details request) None)
         requests.

Definition batch_is_authorized_dag
    (requests : list IsAuthorizedDagRequest) : M bool :=
  py_all (fun request =>
            call_is_authorized_dag
              (dag_method request) (dag_access_entity request)
              (dag_details request) None)
         requests.

Definition batch_is_authorized_pool
    (requests : list IsAuthorizedPoolRequest) : M bool :=
  py_all (fun request =>
            call_is_authorized_pool
              (pool_method request) (pool_details request) None)
         requests.

Definition batch_is_authorized_variable
    (requests : list IsAuthorizedVariableRequest) : M bool :=
  py_all (fun request =>
            call_is_authorized_variable
              (var_method request) (var_details request) None)
         requests.

(** *** The user in session *)

(** [raise AirflowException("The user must be signed in.")]: the
    error the spec calls Unauthenticated. *)
Definition Unauthenticated : exn :=
  AirflowException "The user must be signed in.".

(** The user for which [if not user:] is not taken: [not user] is true
    for [None] and for a user object whose truth value is false. *)
Definition signed_in (user : option T) : option T :=
  match user with
  | Some u => if user_bool u then Some u else None
  | None => None
  end.

Definition get_user_name : M string :=
  match signed_in get_user with
  | None =>
      log_error "Calling 'get_user_name()' but the user is not signed in." ;;
      raise Unauthenticated
  | Some user => ret (get_name user)
  end.

Definition get_user_display_name : M string := get_user_name.

(** Truth value of a [str]: false exactly for the empty string. *)
Definition str_truthy (s : string) : bool :=
  match s with
  | EmptyString => false
  | String _ _ => true
  end.

Definition get_user_id : M (option string) :=
  match signed_in get_user with
  | None =>
      log_error "Calling 'get_user_id()' but the user is not signed in." ;;
      raise Unauthenticated
  | Some user =>
      let user_id := get_id user in
      if str_truthy user_id then ret (Some user_id) else ret None
  end.

(** *** Permitted Dag ids *)

(** The local [methods] after [if not methods: methods = ["PUT", "GET"]];
    [None] and the empty container are the falsy values. *)
Definition effective_methods (methods : option (list ResourceMethod))
  : list ResourceMethod :=
  match methods with
  | None => [PUT; GET]
  | Some [] => [PUT; GET]
  | Some (m :: ms) => m :: ms
  end.

(** [method in methods] *)
Definition method_in (method : ResourceMethod)
    (methods : list ResourceMethod) : bool :=
  bool_decide (method ∈ methods).

(** The nested function of [filter_permitted_dag_ids]; [user] is the
    variable it closes over. *)
Definition _is_permitted_dag_id (user : option T) (method : ResourceMethod)
    (methods : list ResourceMethod) (dag_id : string) : M bool :=
  py_and (ret (method_in method methods))
         (call_is_authorized_dag method None
            (Some (mkDagDetails dag_id)) user).

Definition filter_permitted_dag_ids (dag_ids : gset string)
    (methods : option (list ResourceMethod)) (user : option T)
  : M (gset string) :=
  let methods := effective_methods methods in
  all_dags ←
    py_or (py_and (ret (method_in GET methods))
                  (call_is_authorized_dag GET None None user))
          (py_and (ret (method_in PUT methods))
                  (call_is_authorized_dag PUT None None user));
  if all_dags : bool then ret dag_ids
  else
    py_set_if
      (fun dag_id =>
         py_or (_is_permitted_dag_id user GET methods dag_id)
               (_is_permitted_dag_id user PUT methods dag_id))
      (elements dag_ids).
End Manager.

(** The rows of [session.execute(select(DagModel.dag_id))] as the set
    comprehension consumes them: the store may fail before the first row
    or after any number of rows. *)
Inductive rows : Type :=
| Done
| Row (dag_id : string) (rest : rows)
| Fail (e : exn).

(** [{dag.dag_id for dag in rows}] *)
Fixpoint collect_dag_ids (rs : rows) (acc : gset string)
  : outcome (gset string) :=
  match rs with
  | Done => Return acc
  | Row dag_id rest => collect_dag_ids rest (acc ∪ {[dag_id]})
  | Fail e => Raise e
  end.

Definition get_permitted_dag_ids `{BaseAuthManager}
    (methods : option (list ResourceMethod)) (user : option T)
    (session : rows) : M (gset string) :=
  dag_ids ← lift (collect_dag_ids session ∅);
  filter_permitted_dag_ids dag_ids methods user.

(** ** Token codec *)

(** [conf.get("api", "auth_jwt_secret")] and
    [conf.getint("api", "auth_jwt_expiration_time")]. *)
Record conf : Type := mkConf {
  auth_jwt_secret : string;
  auth_jwt_expiration_time : Z }.

Record JWTSigner : Type := mkJWTSigner {
  secret_key : string;
  expiration_time_in_seconds : Z;
  audience : string }.

(** Modelled from the spec: the token of [airflow.utils.jwt_signer],
    which is not part of the sources at hand.  A token is a signed
    envelope containing the serialized identity, an expiration timestamp
    and an audience tag; the three-part text encoding is left out. *)
Record Token : Type := mkToken {
  claims : payload;
  exp : Z;
  aud : string;
  signature : string }.

Section Signer.
(** The keyed signature (HMAC in the spec) over the envelope's content. *)
Variable mac : string -> payload -> Z -> string -> string.

(** Modelled from the spec: [JWTSigner.generate_signed_token], which
    wraps the payload in a token signed with the secret, expiring
    [expiration_time_in_seconds] after the time of issue [now], for
    the signer's audience. *)
Definition generate_signed_token (signer : JWTSigner) (now : Z)
    (extra_payload : payload) : Token :=
  let expires := (now + expiration_time_in_seconds signer)%Z in
  mkToken extra_payload expires (audience signer)
    (mac (secret_key signer) extra_payload expires (audience signer)).

(** Modelled from the spec: [JWTSigner.verify_token].  Verification
    rejects a token whose signature, audience or expiration does not
    match; a rejected token gives no claims. *)
Definition verify_token (signer : JWTSigner) (now : Z) (token : Token)
  : option payload :=
  if bool_decide
       (signature token =
        mac (secret_key signer) (claims token) (exp token) (aud token))
     && bool_decide (aud token = audience signer)
     && bool_decide (now < exp token)%Z
  then Some (claims token)
  else None.

Definition get_jwt_token `{BaseAuthManager} (cfg : conf) (now : Z)
    (user : T) : Token :=
  let signer :=
    mkJWTSigner (auth_jwt_secret cfg) (auth_jwt_expiration_time cfg)
      "front-apis" in
  generate_signed_token signer now (serialize_user user).
End Signer.

(** ** A concrete backend

    A small manager over named users, used to run the definitions: the
    user in session and a table of grants (who, method, resource id or
    none for the resource kind in general) decide every check. *)
Definition acting_user (session_user user : option string) : option string :=
  match user with
  | Some u => Some u
  | None => session_user
  end.

Definition granted (grants : string -> ResourceMethod -> option string -> bool)
    (session_user user : option string) (method : ResourceMethod)
    (resource : option string) : bool :=
  match acting_user session_user user with
  | Some who => grants who method resource
  | None => false
  end.

Definition simple_deserialize (token : payload) : string :=
  match token !! "sub" with
  | Some (PStr s) => s
  | _ => ""
  end.

Definition simple_manager (session_user : option string)
    (grants : string -> ResourceMethod -> option string -> bool)
  : BaseAuthManager :=
  {| T := string;
     get_id := fun u => u;
     get_name := fun u => u;
     user_bool := fun _ => true;
     ConnectionDetails := string;
     DagAccessEntity := unit;
     PoolDetails := string;
     VariableDetails := string;
     get_user := session_user;
     deserialize_user := simple_deserialize;
     serialize_user := fun u => {[ "sub" := PStr u ]};
     is_authorized_connection := fun method details user =>
       granted grants session_user user method details;
     is_authorized_dag := fun method _ details user =>
       granted grants session_user user method (id <$> details);
     is_authorized_pool := fun method details user =>
       granted grants session_user user method details;
     is_authorized_variable := fun method details user =>
       granted grants session_user user method details |}.

(** alice may do anything, bob may read and edit the Dag [a] only, and
    nobody else may do anything. *)
Definition demo_grants (who : string) (method : ResourceMethod)
    (resource : option string) : bool :=
  if String.eqb who "alice" then true
  else if String.eqb who "bob" then
    match method, resource with
    | (GET | PUT), Some r => String.eqb r "a"
    | _, _ => false
    end
  else false.

(** ** Notions used in the statements *)

Section Notions.
Context `{BaseAuthManager}.

(** [m] returns [v] from every state: it never raises. *)
Definition yields {A} (m : M A) (v : A) : Prop :=
  forall w, value m w = Return v.

(** The condition of the fast path, on the methods in force. *)
Definition blanket (methods : list ResourceMethod) (user : option T) : bool :=
  method_in GET methods && is_authorized_dag GET None None user
  || method_in PUT methods && is_authorized_dag PUT None None user.

(** The condition of the set comprehension for one Dag id. *)
Definition permitted (methods : list ResourceMethod) (user : option T)
    (dag_id : string) : bool :=
  method_in GET methods
    && is_authorized_dag GET None (Some (mkDagDetails dag_id)) user
  || method_in PUT methods
    && is_authorized_dag PUT None (Some (mkDagDetails dag_id)) user.
End Notions.

(** The exception on which the enumeration ends, if it fails. *)
Fixpoint enumeration_failure (rs : rows) : option exn :=
  match rs with
  | Done => None
  | Row _ rest => enumeration_failure rest
  | Fail e => Some e
  end.

(** The ids of the rows, for an enumeration read to its end. *)
Fixpoint row_ids (rs : rows) : gset string :=
  match rs with
  | Done => ∅
  | Row dag_id rest => {[dag_id]} ∪ row_ids rest
  | Fail _ => ∅
  end.

(** A store that yields two rows and then loses its connection. *)
Definition broken_session : rows :=
  Row "a" (Row "b" (Fail (OtherException "OperationalError" "server gone"))).

(** The demo backend with nobody, alice, bob or carol in session. *)
Definition demo (session_user : option string) : BaseAuthManager :=
  simple_manager session_user demo_grants.

Definition abc : gset string := {[ "a"; "b"; "c" ]}.

(** alice in session, and carol as the user named by a request. *)
Definition alice_session : BaseAuthManager := demo (Some "alice").

Definition carol : option (T (BaseAuthManager := alice_session)) :=
  Some "carol".

(** The backend [m] with another truth value for its user objects. *)
Definition with_user_bool (m : BaseAuthManager)
    (truth : T (BaseAuthManager := m) -> bool) : BaseAuthManager :=
  {| T := T (BaseAuthManager := m);
     get_id := get_id;
     get_name := get_name;
     user_bool := truth;
     ConnectionDetails := ConnectionDetails (BaseAuthManager := m);
     DagAccessEntity := DagAccessEntity (BaseAuthManager := m);
     PoolDetails := PoolDetails (BaseAuthManager := m);
     VariableDetails := VariableDetails (BaseAuthManager := m);
     get_user := get_user;
     deserialize_user := deserialize_user;
     serialize_user := serialize_user;
     is_authorized_connection := is_authorized_connection;
     is_authorized_dag := is_authorized_dag;
     is_authorized_pool := is_authorized_pool;
     is_authorized_variable := is_authorized_variable |}.

(** bob in session, for a user class whose [__bool__] returns [False]. *)
Definition falsy_bob_session : BaseAuthManager :=
  with_user_bool (demo (Some "bob")) (fun _ => false).

(** A stand-in for the keyed signature, to run the codec. *)
Definition toy_mac (key : string) (p : payload) (expires : Z)
    (audience : string) : string :=
  key +:+ "|" +:+ audience +:+ "|"
      +:+ String.concat "," (map fst (map_to_list p)).

(** ** Notions for the calls made *)

Section CallNotions.
Context `{BaseAuthManager}.

(** The state [w] after the calls [cs], nothing being logged. *)
Definition add_calls (w : world) (cs : list call) : world :=
  mkWorld (calls w ++ cs) (logged w).

(** The single check that a batch makes for a request, and its record. *)
Definition connection_passes (r : IsAuthorizedConnectionRequest) : bool :=
  is_authorized_connection (conn_method r) (conn_details r) None.

Definition connection_call (r : IsAuthorizedConnectionRequest) : call :=
  CallConnection (conn_method r) (conn_details r) None.

Definition dag_passes (r : IsAuthorizedDagRequest) : bool :=
  is_authorized_dag (dag_method r) (dag_access_entity r) (dag_details r) None.

Definition dag_call (r : IsAuthorizedDagRequest) : call :=
  CallDag (dag_method r) (dag_access_entity r) (dag_details r) None.

Definition pool_passes (r : IsAuthorizedPoolRequest) : bool :=
  is_authorized_pool (pool_method r) (pool_details r) None.

Definition pool_call (r : IsAuthorizedPoolRequest) : call :=
  CallPool (pool_method r) (pool_details r) None.

Definition variable_passes (r : IsAuthorizedVariableRequest) : bool :=
  is_authorized_variable (var_method r) (var_details r) None.

Definition variable_call (r : IsAuthorizedVariableRequest) : call :=
  CallVariable (var_method r) (var_details r) None.

(** The calls of [("GET" in methods and check(GET)) or ("PUT" in methods
    and check(PUT))] for the Dag details [details]: GET is asked when it
    is among the methods, PUT when it is among the methods and GET did
    not already decide. *)
Definition get_put_calls (methods : list ResourceMethod)
    (details : option DagDetails) (user : option T) : list call :=
  (if method_in GET methods then [CallDag GET None details user] else [])
  ++ (if method_in GET methods && is_authorized_dag GET None details user
      then []
      else if method_in PUT methods then [CallDag PUT None details user]
           else []).

(** A call that [filter_permitted_dag_ids] may make for [user] over
    [dag_ids]: a Dag check for GET or PUT, taken from [methods], without
    access entity, for [user], and either without details or for an id
    of the input. *)
Definition filter_call_ok (methods : list ResourceMethod)
    (dag_ids : gset string) (user : option T) (c : call) : Prop :=
  exists method details,
    c = CallDag method None details user /\
    (method = GET \/ method = PUT) /\
    method ∈ methods /\
    (details = None \/
     exists dag_id, dag_id ∈ dag_ids /\ details = Some (mkDagDetails dag_id)).
End CallNotions.

(** A store that yields three rows, one of them twice. *)
Definition abca_session : rows :=
  Row "a" (Row "b" (Row "c" (Row "a" Done))).

(** ** Reasoning about the monad *)

Section Yields.
Context `{BaseAuthManager}.

Lemma yields_ret {A} (v : A) : yields (ret v) v.
Proof. intros w. reflexivity. Qed.

Lemma yields_bind {A B} (m : M A) (k : A -> M B) v r :
  yields m v -> yields (k v) r -> yields (m ≫= k) r.
Proof.
  intros Hm Hk w. specialize (Hm w). unfold value in *.
  unfold mbind, M_bind, bind. destruct (m w) as [[a|e] w']; simpl in Hm.
  - injection Hm as ->. apply Hk.
  - discriminate.
Qed.

Lemma yields_call_dag method access_entity details user :
  yields (call_is_authorized_dag method access_entity details user)
         (is_authorized_dag method access_entity details user).
Proof. intros w. reflexivity. Qed.

Lemma yields_call_connection method details user :
  yields (call_is_authorized_connection method details user)
         (is_authorized_connection method details user).
Proof. intros w. reflexivity. Qed.

Lemma yields_call_pool method details user :
  yields (call_is_authorized_pool method details user)
         (is_authorized_pool method details user).
Proof. intros w. reflexivity. Qed.

Lemma yields_call_variable method details user :
  yields (call_is_authorized_variable method details user)
         (is_authorized_variable method details user).
Proof. intros w. reflexivity. Qed.

Lemma yields_py_and a b x y :
  yields a x -> yields b y -> yields (py_and a b) (x && y).
Proof.
  intros Ha Hb. unfold py_and. eapply yields_bind; [exact Ha|].
  destruct x; simpl; [exact Hb | apply yields_ret].
Qed.

Lemma yields_py_or a b x y :
  yields a x -> yields b y -> yields (py_or a b) (x || y).
Proof.
  intros Ha Hb. unfold py_or. eapply yields_bind; [exact Ha|].
  destruct x; simpl; [apply yields_ret | exact Hb].
Qed.

Lemma yields_py_all {A} (f : A -> M bool) (p : A -> bool) xs :
  (forall x, yields (f x) (p x)) -> yields (py_all f xs) (forallb p xs).
Proof.
  intros Hf. induction xs as [|x xs IH]; simpl.
  - apply yields_ret.
  - eapply yields_bind; [apply Hf|].
    destruct (p x); simpl; [exact IH | apply yields_ret].
Qed.

Lemma yields_py_set_if (f : string -> M bool) (p : string -> bool) xs :
  (forall x, yields (f x) (p x)) ->
  yields (py_set_if f xs) (list_to_set (base.filter (fun x => p x = true) xs)).
Proof.
  intros Hf. induction xs as [|x xs IH]; simpl.
  - apply yields_ret.
  - eapply yields_bind; [apply Hf|].
    eapply yields_bind; [exact IH|].
    rewrite filter_cons. destruct (p x) eqn:Hp.
    + rewrite decide_True by reflexivity. apply yields_ret.
    + rewrite decide_False by discriminate. apply yields_ret.
Qed.
End Yields.

Create HintDb yields.

#[global] Hint Resolve yields_ret yields_call_dag yields_call_connection
  yields_call_pool yields_call_variable yields_py_and yields_py_or : yields.

(** ** The batch checks *)

Section Batch.
Context `{BaseAuthManager}.

Lemma batch_connection_yields requests :
  yields (batch_is_authorized_connection requests)
    (forallb (fun r => is_authorized_connection
                         (conn_method r) (conn_details r) None) requests).
Proof. apply yields_py_all. auto with yields. Qed.

Lemma batch_dag_yields requests :
  yields (batch_is_authorized_dag requests)
    (forallb (fun r => is_authorized_dag (dag_method r)
                         (dag_access_entity r) (dag_details r) None)
             requests).
Proof. apply yields_py_all. auto with yields. Qed.

Lemma batch_pool_yields requests :
  yields (batch_is_authorized_pool requests)
    (forallb (fun r => is_authorized_pool
                         (pool_method r) (pool_details r) None) requests).
Proof. apply yields_py_all. auto with yields. Qed.

Lemma batch_variable_yields requests :
  yields (batch_is_authorized_variable requests)
    (forallb (fun r => is_authorized_variable
                         (var_method r) (var_details r) None) requests).
Proof. apply yields_py_all. auto with yields. Qed.

(** A batch that yields [forallb p] returns true exactly when every
    request satisfies [p], and returns true on no request at all. *)
Lemma conjunction_of_yields {A} (batch : list A -> M bool) (p : A -> bool) :
  (forall requests, yields (batch requests) (forallb p requests)) ->
  (forall requests w,
      exists b, value (batch requests) w = Return b /\
                (b = true <-> Forall (fun r => p r = true) requests)) /\
  (forall w, value (batch []) w = Return true).
Proof.
  intros Hy. split.
  - intros requests w. exists (forallb p requests). split; [apply Hy|].
    rewrite forallb_forall, Forall_forall.
    split; intros Hall r Hr; apply Hall; by apply list_elem_of_In.
  - intros w. apply (Hy []).
Qed.
End Batch.

(** C1. Each default batch check returns, and returns true if and only
    if every request of the sequence passes the single check with its
    own method and details (and access entity for a Dag); on the empty
    sequence it returns true.  This holds for connections, Dags, pools
    and variables alike. *)
Theorem batch_is_authorized_conjunction `{BaseAuthManager} :
  ((forall requests w,
       exists b, value (batch_is_authorized_connection requests) w = Return b /\
         (b = true <->
          Forall (fun r => is_authorized_connection
                             (conn_method r) (conn_details r) None = true)
                 requests)) /\
   (forall w, value (batch_is_authorized_connection []) w = Return true)) /\
  ((forall requests w,
       exists b, value (batch_is_authorized_dag requests) w = Return b /\
         (b = true <->
          Forall (fun r => is_authorized_dag (dag_method r)
                             (dag_access_entity r) (dag_details r) None = true)
                 requests)) /\
   (forall w, value (batch_is_authorized_dag []) w = Return true)) /\
  ((forall requests w,
       exists b, value (batch_is_authorized_pool requests) w = Return b /\
         (b = true <->
          Forall (fun r => is_authorized_pool
                             (pool_method r) (pool_details r) None = true)
                 requests)) /\
   (forall w, value (batch_is_authorized_pool []) w = Return true)) /\
  ((forall requests w,
       exists b, value (batch_is_authorized_variable requests) w = Return b /\
         (b = true <->
          Forall (fun r => is_authorized_variable
                             (var_method r) (var_details r) None = true)
                 requests)) /\
   (forall w, value (batch_is_authorized_variable []) w = Return true)).
Proof.
  repeat split_and.
  - apply (conjunction_of_yields _ _ batch_connection_yields).
  - apply (conjunction_of_yields _ _ batch_connection_yields).
  - apply (conjunction_of_yields _ _ batch_dag_yields).
  - apply (conjunction_of_yields _ _ batch_dag_yields).
  - apply (conjunction_of_yields _ _ batch_pool_yields).
  - apply (conjunction_of_yields _ _ batch_pool_yields).
  - apply (conjunction_of_yields _ _ batch_variable_yields).
  - apply (conjunction_of_yields _ _ batch_variable_yields).
Qed.

(** ** Filtering Dag ids *)

Section Filter.
Context `{BaseAuthManager}.

Lemma method_in_spec method methods :
  method_in method methods = true <-> method ∈ methods.
Proof. unfold method_in. by rewrite bool_decide_eq_true. Qed.

Lemma blanket_spec methods user :
  blanket methods user = true <->
  (GET ∈ methods /\ is_authorized_dag GET None None user = true) \/
  (PUT ∈ methods /\ is_authorized_dag PUT None None user = true).
Proof.
  unfold blanket.
  by rewrite orb_true_iff, !andb_true_iff, !method_in_spec.
Qed.

Lemma permitted_spec methods user dag_id :
  permitted methods user dag_id = true <->
  (GET ∈ methods /\
   is_authorized_dag GET None (Some (mkDagDetails dag_id)) user = true) \/
  (PUT ∈ methods /\
   is_authorized_dag PUT None (Some (mkDagDetails dag_id)) user = true).
Proof.
  unfold permitted.
  by rewrite orb_true_iff, !andb_true_iff, !method_in_spec.
Qed.

Lemma is_permitted_dag_id_yields user method methods dag_id :
  yields (_is_permitted_dag_id user method methods dag_id)
    (method_in method methods
     && is_authorized_dag method None (Some (mkDagDetails dag_id)) user).
Proof. unfold _is_permitted_dag_id. auto with yields. Qed.

(** What [filter_permitted_dag_ids] returns, path by path. *)
Lemma filter_permitted_dag_ids_yields dag_ids methods user :
  yields (filter_permitted_dag_ids dag_ids methods user)
    (if blanket (effective_methods methods) user then dag_ids
     else list_to_set
            (base.filter
               (fun d => permitted (effective_methods methods) user d = true)
               (elements dag_ids))).
Proof.
  unfold filter_permitted_dag_ids.
  eapply yields_bind.
  { apply yields_py_or; apply yields_py_and; auto with yields. }
  fold (blanket (effective_methods methods) user).
  destruct (blanket (effective_methods methods) user).
  - apply yields_ret.
  - apply yields_py_set_if. intros d. unfold permitted.
    apply yields_py_or; apply is_permitted_dag_id_yields.
Qed.

Lemma elem_of_slow_path methods user (dag_ids : gset string) d :
  d ∈ (list_to_set
         (base.filter (fun d => permitted methods user d = true)
            (elements dag_ids)) : gset string) <->
  d ∈ dag_ids /\ permitted methods user d = true.
Proof.
  rewrite elem_of_list_to_set, list_elem_of_filter, elem_of_elements.
  tauto.
Qed.

(** The run of the fast path: the answer and the calls made. *)
Lemma fast_path_run dag_ids methods user w :
  blanket (effective_methods methods) user = true ->
  exists new,
    filter_permitted_dag_ids dag_ids methods user w =
      (Return dag_ids, mkWorld (calls w ++ new) (logged w)) /\
    Forall (fun c => exists method, c = CallDag method None None user) new.
Proof.
  unfold blanket, filter_permitted_dag_ids, py_or, py_and,
    call_is_authorized_dag, record_call, mbind, M_bind, bind, mret, M_ret, ret.
  destruct (method_in GET (effective_methods methods));
    destruct (method_in PUT (effective_methods methods));
    destruct (is_authorized_dag GET None None user);
    destruct (is_authorized_dag PUT None None user);
    simpl; intros Hb; try discriminate;
    rewrite <- ?app_assoc; eexists; (split; [reflexivity|]);
    repeat constructor; eauto.
Qed.
End Filter.

(** C2. When the user passes the unscoped Dag check for GET with GET
    among the methods, or for PUT with PUT among the methods,
    [filter_permitted_dag_ids] returns the whole input set, and every
    call it makes to [is_authorized_dag] is an unscoped one (without
    details): no Dag id is checked. *)
Theorem filter_permitted_dag_ids_fast_path `{BaseAuthManager}
    (dag_ids : gset string) (methods : option (list ResourceMethod))
    (user : option T) (w : world) :
  (GET ∈ effective_methods methods /\
   is_authorized_dag GET None None user = true) \/
  (PUT ∈ effective_methods methods /\
   is_authorized_dag PUT None None user = true) ->
  value (filter_permitted_dag_ids dag_ids methods user) w = Return dag_ids /\
  exists new,
    calls (final (filter_permitted_dag_ids dag_ids methods user) w) =
      calls w ++ new /\
    Forall (fun c => exists method, c = CallDag method None None user) new.
Proof.
  intros Hb. apply blanket_spec in Hb.
  destruct (fast_path_run dag_ids methods user w Hb) as (new & Hrun & Hnew).
  unfold value, final. rewrite Hrun. simpl. eauto.
Qed.

Lemma filter_permitted_dag_ids_fast_path_witness :
  ((GET ∈ effective_methods (Some [GET]) /\
    is_authorized_dag (BaseAuthManager := demo (Some "alice"))
      GET None None None = true) \/
   (PUT ∈ effective_methods (Some [GET]) /\
    is_authorized_dag (BaseAuthManager := demo (Some "alice"))
      PUT None None None = true)) /\
  value (H := demo (Some "alice"))
    (filter_permitted_dag_ids abc (Some [GET]) None) (mkWorld [] []) =
  Return abc.
Proof.
  assert (Hpre :
    (GET ∈ effective_methods (Some [GET]) /\
     is_authorized_dag (BaseAuthManager := demo (Some "alice"))
       GET None None None = true) \/
    (PUT ∈ effective_methods (Some [GET]) /\
     is_authorized_dag (BaseAuthManager := demo (Some "alice"))
       PUT None None None = true)).
  { left. split; [simpl; constructor | reflexivity]. }
  split; [exact Hpre|].
  exact (proj1 (filter_permitted_dag_ids_fast_path
                  (H := demo (Some "alice")) abc (Some [GET]) None
                  (mkWorld [] []) Hpre)).
Defined.

Section FilterSlow.
Context `{BaseAuthManager}.

(** The slow path in general. *)
Lemma slow_path_general (dag_ids : gset string) methods user w :
  ~ ((GET ∈ effective_methods methods /\
      is_authorized_dag GET None None user = true) \/
     (PUT ∈ effective_methods methods /\
      is_authorized_dag PUT None None user = true)) ->
  exists result : gset string,
    value (filter_permitted_dag_ids dag_ids methods user) w = Return result /\
    forall d,
      d ∈ result <->
      d ∈ dag_ids /\
      ((GET ∈ effective_methods methods /\
        is_authorized_dag GET None (Some (mkDagDetails d)) user = true) \/
       (PUT ∈ effective_methods methods /\
        is_authorized_dag PUT None (Some (mkDagDetails d)) user = true)).
Proof.
  intros Hslow. rewrite <- blanket_spec in Hslow.
  apply not_true_is_false in Hslow.
  eexists. split.
  - rewrite (filter_permitted_dag_ids_yields dag_ids methods user w).
    rewrite Hslow. reflexivity.
  - intros d. rewrite elem_of_slow_path, permitted_spec. reflexivity.
Qed.

(** A user allowed on the Dag [a] alone, among [a], [b] and [c]. *)
Lemma slow_path_only_a user w :
  is_authorized_dag GET None None user = false ->
  is_authorized_dag PUT None None user = false ->
  (is_authorized_dag GET None (Some (mkDagDetails "a")) user = true \/
   is_authorized_dag PUT None (Some (mkDagDetails "a")) user = true) ->
  (forall method d, d = "b" \/ d = "c" ->
      is_authorized_dag method None (Some (mkDagDetails d)) user = false) ->
  value (filter_permitted_dag_ids {[ "a"; "b"; "c" ]} (Some [GET; PUT]) user)
    w = Return {[ "a" ]}.
Proof.
  intros Hget Hput Ha Hbc.
  destruct (slow_path_general {[ "a"; "b"; "c" ]} (Some [GET; PUT]) user w)
    as (result & Hval & Hmem).
  { rewrite Hget, Hput. intros [[_ ?]|[_ ?]]; discriminate. }
  rewrite Hval. f_equal. apply set_eq. intros d. rewrite Hmem.
  rewrite elem_of_singleton. split.
  - intros [Hd Hauth].
    destruct (decide (d = "a")) as [->|Hne]; [reflexivity|].
    assert (Hd' : d = "b" \/ d = "c").
    { rewrite !elem_of_union, !elem_of_singleton in Hd. tauto. }
    rewrite !(Hbc _ d Hd') in Hauth.
    destruct Hauth as [[_ ?]|[_ ?]]; discriminate.
  - intros ->. split.
    { rewrite !elem_of_union, !elem_of_singleton. tauto. }
    simpl. destruct Ha as [Ha|Ha]; [left|right]; (split; [|exact Ha]).
    + apply list_elem_of_here.
    + apply list_elem_of_further, list_elem_of_here.
Qed.

(** A user denied without details and on every Dag id. *)
Lemma slow_path_denied (dag_ids : gset string) methods user w :
  is_authorized_dag GET None None user = false ->
  is_authorized_dag PUT None None user = false ->
  (forall method d,
      is_authorized_dag method None (Some (mkDagDetails d)) user = false) ->
  value (filter_permitted_dag_ids dag_ids methods user) w = Return ∅.
Proof.
  intros Hget Hput Hall.
  destruct (slow_path_general dag_ids methods user w)
    as (result & Hval & Hmem).
  { rewrite Hget, Hput. intros [[_ ?]|[_ ?]]; discriminate. }
  rewrite Hval. f_equal. apply set_eq. intros d. rewrite Hmem, !Hall.
  rewrite elem_of_empty.
  split; [intros [_ [[_ ?]|[_ ?]]]; discriminate | tauto].
Qed.
End FilterSlow.

(** C3. When neither unscoped check of the fast path succeeds,
    [filter_permitted_dag_ids] returns exactly the ids [d] of the input
    for which GET is among the methods and the user is authorized for
    GET on [d], or PUT is among the methods and the user is authorized
    for PUT on [d]; the result being a set, an id passing both appears
    once.  So a user authorized for [a] only, among [a], [b] and [c],
    gets exactly [a] with the methods GET and PUT, and a user denied
    without details and on every id gets the empty set, whatever the
    input and the methods. *)
Theorem filter_permitted_dag_ids_slow_path `{BaseAuthManager} :
  (forall (dag_ids : gset string) methods user w,
      ~ ((GET ∈ effective_methods methods /\
          is_authorized_dag GET None None user = true) \/
         (PUT ∈ effective_methods methods /\
          is_authorized_dag PUT None None user = true)) ->
      exists result : gset string,
        value (filter_permitted_dag_ids dag_ids methods user) w
          = Return result /\
        forall d,
          d ∈ result <->
          d ∈ dag_ids /\
          ((GET ∈ effective_methods methods /\
            is_authorized_dag GET None (Some (mkDagDetails d)) user = true) \/
           (PUT ∈ effective_methods methods /\
            is_authorized_dag PUT None (Some (mkDagDetails d)) user = true))) /\
  (forall user w,
      is_authorized_dag GET None None user = false ->
      is_authorized_dag PUT None None user = false ->
      (is_authorized_dag GET None (Some (mkDagDetails "a")) user = true \/
       is_authorized_dag PUT None (Some (mkDagDetails "a")) user = true) ->
      (forall method d, d = "b" \/ d = "c" ->
          is_authorized_dag method None (Some (mkDagDetails d)) user = false) ->
      value (filter_permitted_dag_ids {[ "a"; "b"; "c" ]}
               (Some [GET; PUT]) user) w = Return {[ "a" ]}) /\
  (forall (dag_ids : gset string) methods user w,
      is_authorized_dag GET None None user = false ->
      is_authorized_dag PUT None None user = false ->
      (forall method d,
          is_authorized_dag method None (Some (mkDagDetails d)) user = false) ->
      value (filter_permitted_dag_ids dag_ids methods user) w = Return ∅).
Proof.
  split; [|split].
  - apply slow_path_general.
  - apply slow_path_only_a.
  - apply slow_path_denied.
Qed.

Lemma filter_permitted_dag_ids_slow_path_witness :
  (exists result : gset string,
      value (H := demo (Some "bob"))
        (filter_permitted_dag_ids abc None None) (mkWorld [] [])
        = Return result /\
      forall d,
        d ∈ result <->
        d ∈ abc /\
        ((GET ∈ effective_methods None /\
          is_authorized_dag (BaseAuthManager := demo (Some "bob"))
            GET None (Some (mkDagDetails d)) None = true) \/
         (PUT ∈ effective_methods None /\
          is_authorized_dag (BaseAuthManager := demo (Some "bob"))
            PUT None (Some (mkDagDetails d)) None = true))) /\
  value (H := demo (Some "bob"))
    (filter_permitted_dag_ids {[ "a"; "b"; "c" ]} (Some [GET; PUT]) None)
    (mkWorld [] []) = Return {[ "a" ]} /\
  value (H := demo (Some "carol"))
    (filter_permitted_dag_ids abc (Some [PUT]) None) (mkWorld [] [])
    = Return ∅.
Proof.
  split; [|split].
  - apply (proj1 (filter_permitted_dag_ids_slow_path (H := demo (Some "bob")))).
    simpl. intros [[_ ?]|[_ ?]]; discriminate.
  - apply (proj1 (proj2 (filter_permitted_dag_ids_slow_path
                           (H := demo (Some "bob"))))).
    + reflexivity.
    + reflexivity.
    + left. reflexivity.
    + intros method d [->| ->]; destruct method; reflexivity.
  - apply (proj2 (proj2 (filter_permitted_dag_ids_slow_path
                           (H := demo (Some "carol"))))).
    + reflexivity.
    + reflexivity.
    + intros method d. reflexivity.
Defined.

Section FilterMethods.
Context `{BaseAuthManager}.

(** Only the presence of GET and of PUT among the methods matters. *)
Lemma filter_permitted_dag_ids_ext dag_ids methods1 methods2 user w :
  method_in GET (effective_methods methods1)
    = method_in GET (effective_methods methods2) ->
  method_in PUT (effective_methods methods1)
    = method_in PUT (effective_methods methods2) ->
  filter_permitted_dag_ids dag_ids methods1 user w
    = filter_permitted_dag_ids dag_ids methods2 user w.
Proof.
  intros Hget Hput.
  unfold filter_permitted_dag_ids, _is_permitted_dag_id.
  rewrite Hget, Hput. reflexivity.
Qed.

Lemma method_in_ext method methods1 methods2 :
  (method ∈ methods1 <-> method ∈ methods2) ->
  method_in method methods1 = method_in method methods2.
Proof. intros Hiff. unfold method_in. by apply bool_decide_ext. Qed.

Lemma effective_methods_nonempty methods :
  methods <> [] -> effective_methods (Some methods) = methods.
Proof. destruct methods; [congruence | reflexivity]. Qed.

(** A comprehension whose condition is false without any call leaves
    the state as it is. *)
Lemma py_set_if_never (f : string -> M bool) xs w :
  (forall x w', f x w' = (Return false, w')) ->
  py_set_if f xs w = (Return ∅, w).
Proof.
  intros Hf. induction xs as [|x xs IH]; simpl; [reflexivity|].
  unfold mbind, M_bind, bind in *. rewrite Hf, IH. reflexivity.
Qed.
End FilterMethods.

(** C4. With [methods] left unset ([None]), or given as an empty
    container, [filter_permitted_dag_ids] runs exactly as with a
    container holding GET and PUT and nothing else: same result, same
    calls, same log. *)
Theorem filter_permitted_dag_ids_default_methods `{BaseAuthManager}
    (dag_ids : gset string) (user : option T) (w : world)
    (get_put : list ResourceMethod) :
  (forall method, method ∈ get_put <-> method = GET \/ method = PUT) ->
  filter_permitted_dag_ids dag_ids None user w
    = filter_permitted_dag_ids dag_ids (Some get_put) user w /\
  filter_permitted_dag_ids dag_ids (Some []) user w
    = filter_permitted_dag_ids dag_ids (Some get_put) user w.
Proof.
  intros Hmem.
  assert (Hne : get_put <> []).
  { intros ->. specialize (Hmem GET). rewrite elem_of_nil in Hmem. tauto. }
  assert (Hin : forall method,
             method_in method [PUT; GET] = method_in method get_put).
  { intros method. apply method_in_ext. rewrite Hmem.
    rewrite !elem_of_cons, elem_of_nil. tauto. }
  split; apply filter_permitted_dag_ids_ext;
    rewrite (effective_methods_nonempty get_put Hne); apply Hin.
Qed.

Lemma filter_permitted_dag_ids_default_methods_witness :
  (forall method, method ∈ [GET; PUT] <-> method = GET \/ method = PUT) /\
  filter_permitted_dag_ids (H := demo (Some "bob")) abc None None
      (mkWorld [] [])
    = filter_permitted_dag_ids (H := demo (Some "bob")) abc
        (Some [GET; PUT]) None (mkWorld [] []) /\
  filter_permitted_dag_ids (H := demo (Some "bob")) abc (Some []) None
      (mkWorld [] [])
    = filter_permitted_dag_ids (H := demo (Some "bob")) abc
        (Some [GET; PUT]) None (mkWorld [] []).
Proof.
  assert (Hmem : forall method,
             method ∈ [GET; PUT] <-> method = GET \/ method = PUT).
  { intros method. rewrite !elem_of_cons, elem_of_nil. tauto. }
  split; [exact Hmem|].
  exact (filter_permitted_dag_ids_default_methods
           (H := demo (Some "bob")) abc None (mkWorld [] []) [GET; PUT] Hmem).
Defined.

(** C9. [filter_permitted_dag_ids] returns, and what it returns is a
    subset of the input set, on the fast path and on the slow path. *)
Theorem filter_permitted_dag_ids_subset `{BaseAuthManager}
    (dag_ids : gset string) (methods : option (list ResourceMethod))
    (user : option T) (w : world) :
  exists result : gset string,
    value (filter_permitted_dag_ids dag_ids methods user) w = Return result /\
    result ⊆ dag_ids.
Proof.
  eexists. split; [apply filter_permitted_dag_ids_yields|].
  destruct (blanket (effective_methods methods) user); [reflexivity|].
  intros d Hd. by apply elem_of_slow_path in Hd as [Hd _].
Qed.

(** C10. With a non-empty [methods] holding neither GET nor PUT,
    [filter_permitted_dag_ids] returns the empty set whatever the
    backend grants; it does so without a single call to the backend. *)
Theorem filter_permitted_dag_ids_other_methods `{BaseAuthManager}
    (dag_ids : gset string) (methods : list ResourceMethod)
    (user : option T) (w : world) :
  methods <> [] -> GET ∉ methods -> PUT ∉ methods ->
  filter_permitted_dag_ids dag_ids (Some methods) user w = (Return ∅, w).
Proof.
  intros Hne Hget Hput.
  unfold filter_permitted_dag_ids, _is_permitted_dag_id.
  rewrite (effective_methods_nonempty methods Hne).
  assert (Hg : method_in GET methods = false)
    by (unfold method_in; by apply bool_decide_eq_false).
  assert (Hp : method_in PUT methods = false)
    by (unfold method_in; by apply bool_decide_eq_false).
  rewrite Hg, Hp. unfold mbind at 1, M_bind at 1, bind at 1. simpl.
  apply py_set_if_never. intros x w'. reflexivity.
Qed.

Lemma filter_permitted_dag_ids_other_methods_witness :
  [POST; DELETE] <> [] /\
  (GET ∉ [POST; DELETE]) /\
  (PUT ∉ [POST; DELETE]) /\
  filter_permitted_dag_ids (H := demo (Some "alice")) abc
    (Some [POST; DELETE]) None (mkWorld [] []) = (Return ∅, mkWorld [] []).
Proof.
  assert (Hne : [POST; DELETE] <> []) by discriminate.
  assert (Hget : GET ∉ [POST; DELETE]).
  { rewrite !elem_of_cons, elem_of_nil. intros [?|[?|[]]]; discriminate. }
  assert (Hput : PUT ∉ [POST; DELETE]).
  { rewrite !elem_of_cons, elem_of_nil. intros [?|[?|[]]]; discriminate. }
  split; [exact Hne|]. split; [exact Hget|]. split; [exact Hput|].
  exact (filter_permitted_dag_ids_other_methods
           (H := demo (Some "alice")) abc [POST; DELETE] None (mkWorld [] [])
           Hne Hget Hput).
Defined.

(** ** Identity overrides in batch requests *)

Section BatchUser.
Context `{BaseAuthManager}.

(** The default batch check never reads the [user] of a request: two
    sequences that differ in the users only run alike. *)
Lemma batch_connection_ignores_user requests user w :
  batch_is_authorized_connection
    (map (fun r => mkConnectionRequest (conn_method r) (conn_details r) user)
         requests) w
  = batch_is_authorized_connection requests w.
Proof.
  unfold batch_is_authorized_connection. revert w.
  induction requests as [|r requests IH]; intros w; simpl; [reflexivity|].
  unfold mbind, M_bind, bind in *.
  destruct (call_is_authorized_connection (conn_method r) (conn_details r)
              None w) as [[[|]|e] w']; [apply IH | reflexivity | reflexivity].
Qed.
End BatchUser.

(** C5, evaluated on the code.  alice, who may do anything, is the user
    in session, and each request names carol, who may do nothing, as its
    user.  Every default batch check returns true, having asked the
    backend with no user at all (so for alice), although the single
    check on behalf of carol is false. *)
Theorem batch_drops_identity_override :
  (batch_is_authorized_connection
     [mkConnectionRequest (H := alice_session) GET None carol] (mkWorld [] [])
     = (Return true, mkWorld [CallConnection GET None None] []) /\
   is_authorized_connection (BaseAuthManager := alice_session)
     GET None carol = false) /\
  (batch_is_authorized_dag
     [mkDagRequest (H := alice_session) GET None None carol] (mkWorld [] [])
     = (Return true, mkWorld [CallDag GET None None None] []) /\
   is_authorized_dag (BaseAuthManager := alice_session)
     GET None None carol = false) /\
  (batch_is_authorized_pool
     [mkPoolRequest (H := alice_session) GET None carol] (mkWorld [] [])
     = (Return true, mkWorld [CallPool GET None None] []) /\
   is_authorized_pool (BaseAuthManager := alice_session)
     GET None carol = false) /\
  (batch_is_authorized_variable
     [mkVariableRequest (H := alice_session) GET None carol] (mkWorld [] [])
     = (Return true, mkWorld [CallVariable GET None None] []) /\
   is_authorized_variable (BaseAuthManager := alice_session)
     GET None carol = false).
Proof. repeat split_and; reflexivity. Qed.

(** ** The user in session *)

(** What [if not user:] does with a user object whose truth value is
    false: it is taken for no user at all. *)
Lemma falsy_user_is_signed_out `{BaseAuthManager} user w :
  get_user = Some user -> user_bool user = false ->
  get_user_name w =
    (Raise Unauthenticated,
     mkWorld (calls w)
       (logged w ++
        [mkLog LOG_ERROR
           "Calling 'get_user_name()' but the user is not signed in."])) /\
  get_user_id w =
    (Raise Unauthenticated,
     mkWorld (calls w)
       (logged w ++
        [mkLog LOG_ERROR
           "Calling 'get_user_id()' but the user is not signed in."])).
Proof.
  intros Huser Hfalse. unfold get_user_name, get_user_id, signed_in.
  rewrite Huser, Hfalse. split; reflexivity.
Qed.

(** C6 as stated fails: with bob bound to the session, for a user class
    whose truth value is false, the three operations raise. *)
Lemma bound_user_may_raise :
  get_user (BaseAuthManager := falsy_bob_session) = Some "bob" /\
  value (H := falsy_bob_session) get_user_name (mkWorld [] [])
    = Raise (AirflowException "The user must be signed in.") /\
  value (H := falsy_bob_session) get_user_display_name (mkWorld [] [])
    = Raise (AirflowException "The user must be signed in.") /\
  value (H := falsy_bob_session) get_user_id (mkWorld [] [])
    = Raise (AirflowException "The user must be signed in.").
Proof. repeat split_and; reflexivity. Qed.

(** C6, amended. With no user in session, [get_user_name],
    [get_user_display_name] and [get_user_id] raise the
    [AirflowException] "The user must be signed in." and nothing else,
    and the logger has received one more record, at error level, when
    the exception reaches the caller.  With a user in session whose
    truth value is true they return: the name, the name, and the id (or
    [None] for an empty id); nothing is logged. *)
Theorem current_user_required `{BaseAuthManager} :
  (get_user = None ->
   forall w,
     get_user_name w =
       (Raise Unauthenticated,
        mkWorld (calls w)
          (logged w ++
           [mkLog LOG_ERROR
              "Calling 'get_user_name()' but the user is not signed in."])) /\
     get_user_display_name w =
       (Raise Unauthenticated,
        mkWorld (calls w)
          (logged w ++
           [mkLog LOG_ERROR
              "Calling 'get_user_name()' but the user is not signed in."])) /\
     get_user_id w =
       (Raise Unauthenticated,
        mkWorld (calls w)
          (logged w ++
           [mkLog LOG_ERROR
              "Calling 'get_user_id()' but the user is not signed in."]))) /\
  (forall user, get_user = Some user -> user_bool user = true ->
   forall w,
     get_user_name w = (Return (get_name user), w) /\
     get_user_display_name w = (Return (get_name user), w) /\
     get_user_id w =
       (Return (if str_truthy (get_id user) then Some (get_id user) else None),
        w)).
Proof.
  split.
  - intros Hnone w.
    unfold get_user_display_name, get_user_name, get_user_id, signed_in.
    rewrite Hnone. repeat split_and; reflexivity.
  - intros user Hsome Htrue w.
    unfold get_user_display_name, get_user_name, get_user_id, signed_in.
    rewrite Hsome, Htrue. repeat split_and; try reflexivity.
    simpl. destruct (str_truthy (get_id user)); reflexivity.
Qed.

Lemma current_user_required_witness :
  (get_user (BaseAuthManager := demo None) = None /\
   get_user_name (H := demo None) (mkWorld [] []) =
     (Raise (AirflowException "The user must be signed in."),
      mkWorld []
        [mkLog LOG_ERROR
           "Calling 'get_user_name()' but the user is not signed in."])) /\
  (get_user (BaseAuthManager := demo (Some "bob")) = Some "bob" /\
   user_bool (BaseAuthManager := demo (Some "bob")) "bob" = true /\
   get_user_id (H := demo (Some "bob")) (mkWorld [] []) =
     (Return (Some "bob"), mkWorld [] [])).
Proof.
  split.
  - split; [reflexivity|].
    exact (proj1 (proj1 (current_user_required (H := demo None))
                    eq_refl (mkWorld [] []))).
  - split; [reflexivity|]. split; [reflexivity|].
    exact (proj2 (proj2 (proj2 (current_user_required (H := demo (Some "bob")))
                           "bob" eq_refl eq_refl (mkWorld [] [])))).
Defined.

(** ** Enumeration of the Dag ids *)

Lemma collect_dag_ids_failure rs e acc :
  enumeration_failure rs = Some e -> collect_dag_ids rs acc = Raise e.
Proof.
  revert acc. induction rs as [|dag_id rest IH|e']; intros acc Hfail; simpl in *.
  - discriminate.
  - by apply IH.
  - congruence.
Qed.

Lemma collect_dag_ids_success rs acc :
  enumeration_failure rs = None ->
  collect_dag_ids rs acc = Return (acc ∪ row_ids rs).
Proof.
  revert acc. induction rs as [|dag_id rest IH|e']; intros acc Hok; simpl in *.
  - by rewrite (right_id_L ∅ (∪)).
  - rewrite IH by done. by rewrite (assoc_L (∪)).
  - discriminate.
Qed.

(** When the enumeration succeeds, the ids read are filtered. *)
Lemma get_permitted_dag_ids_success `{BaseAuthManager} session methods user w :
  enumeration_failure session = None ->
  get_permitted_dag_ids methods user session w
    = filter_permitted_dag_ids (row_ids session) methods user w.
Proof.
  intros Hok. unfold get_permitted_dag_ids, mbind, M_bind, bind, lift.
  rewrite (collect_dag_ids_success _ _ Hok).
  by rewrite (left_id_L ∅ (∪)).
Qed.

(** C7. When the enumeration of the Dag ids fails, after any number of
    rows, [get_permitted_dag_ids] raises the very exception of the
    store; it returns no set, and it leaves the state as it was:
    [filter_permitted_dag_ids] has not run and the backend has not been
    asked about any id. *)
Theorem get_permitted_dag_ids_enumeration_failure `{BaseAuthManager}
    (session : rows) (e : exn) (methods : option (list ResourceMethod))
    (user : option T) (w : world) :
  enumeration_failure session = Some e ->
  get_permitted_dag_ids methods user session w = (Raise e, w).
Proof.
  intros Hfail. unfold get_permitted_dag_ids, mbind, M_bind, bind, lift.
  by rewrite (collect_dag_ids_failure _ _ _ Hfail).
Qed.

Lemma get_permitted_dag_ids_enumeration_failure_witness :
  enumeration_failure broken_session
    = Some (OtherException "OperationalError" "server gone") /\
  get_permitted_dag_ids (H := alice_session) None None broken_session
    (mkWorld [] [])
    = (Raise (OtherException "OperationalError" "server gone"), mkWorld [] []).
Proof.
  split; [reflexivity|].
  exact (get_permitted_dag_ids_enumeration_failure (H := alice_session)
           broken_session (OtherException "OperationalError" "server gone")
           None None (mkWorld [] []) eq_refl).
Defined.

(** ** Tokens *)

Section Tokens.
Context `{BaseAuthManager}.
Variable mac : string -> payload -> Z -> string -> string.

(** A fresh token passes verification before it expires. *)
Lemma verify_fresh_token signer verifier issued now extra_payload :
  secret_key verifier = secret_key signer ->
  audience verifier = audience signer ->
  (now < issued + expiration_time_in_seconds signer)%Z ->
  verify_token mac verifier now
    (generate_signed_token mac signer issued extra_payload)
  = Some extra_payload.
Proof.
  intros Hkey Haud Hnow. unfold verify_token, generate_signed_token. simpl.
  rewrite Hkey, Haud.
  rewrite !bool_decide_eq_true_2 by done. reflexivity.
Qed.

(** A token is rejected from its expiration on. *)
Lemma verify_expired_token verifier now token :
  (exp token <= now)%Z -> verify_token mac verifier now token = None.
Proof.
  intros Hexp. unfold verify_token.
  rewrite (bool_decide_eq_false_2 (now < exp token)%Z) by lia.
  by rewrite andb_false_r.
Qed.

(** A token for another audience is rejected. *)
Lemma verify_other_audience verifier now token :
  aud token <> audience verifier ->
  verify_token mac verifier now token = None.
Proof.
  intros Haud. unfold verify_token.
  rewrite (bool_decide_eq_false_2 (aud token = audience verifier)) by done.
  by rewrite andb_false_r.
Qed.
End Tokens.

(** C8. For a backend whose [deserialize_user] undoes [serialize_user]:
    the token that [get_jwt_token] issues for a user, verified before
    its expiration with the configured secret and the audience
    "front-apis", gives claims that [deserialize_user] turns into a user
    with the id and the name of the user the token was issued for. *)
Theorem jwt_token_round_trip `{BaseAuthManager}
    (mac : string -> payload -> Z -> string -> string)
    (cfg : conf) (verifier : JWTSigner) (issued now : Z) (user : T) :
  (forall u, deserialize_user (serialize_user u) = u) ->
  secret_key verifier = auth_jwt_secret cfg ->
  audience verifier = "front-apis" ->
  (issued <= now < issued + auth_jwt_expiration_time cfg)%Z ->
  exists verified,
    verify_token mac verifier now (get_jwt_token mac cfg issued user)
      = Some verified /\
    get_id (deserialize_user verified) = get_id user /\
    get_name (deserialize_user verified) = get_name user.
Proof.
  intros Hinv Hkey Haud [_ Hnow].
  exists (serialize_user user). split.
  - unfold get_jwt_token. by apply verify_fresh_token.
  - by rewrite Hinv.
Qed.

Lemma jwt_token_round_trip_witness :
  (forall u, deserialize_user (BaseAuthManager := alice_session)
               (serialize_user u) = u) /\
  (1000 <= 1300 < 1000 + auth_jwt_expiration_time (mkConf "s3cret" 600))%Z /\
  exists verified,
    verify_token toy_mac (mkJWTSigner "s3cret" 600 "front-apis") 1300
      (get_jwt_token (H := alice_session) toy_mac (mkConf "s3cret" 600)
         1000 "bob")
      = Some verified /\
    get_id (BaseAuthManager := alice_session) (deserialize_user verified)
      = "bob" /\
    get_name (BaseAuthManager := alice_session) (deserialize_user verified)
      = "bob".
Proof.
  assert (Hinv : forall u, deserialize_user (BaseAuthManager := alice_session)
                             (serialize_user u) = u).
  { intros u. simpl. unfold simple_deserialize.
    by rewrite lookup_singleton_eq. }
  assert (Hnow : (1000 <= 1300
                  < 1000 + auth_jwt_expiration_time (mkConf "s3cret" 600))%Z).
  { simpl. lia. }
  split; [exact Hinv|]. split; [exact Hnow|].
  exact (jwt_token_round_trip (H := alice_session) toy_mac
           (mkConf "s3cret" 600) (mkJWTSigner "s3cret" 600 "front-apis")
           1000 1300 "bob" Hinv eq_refl eq_refl Hnow).
Defined.

(** ** The calls of the batch checks *)

Section Runs.
Context `{BaseAuthManager}.

Lemma add_calls_nil w : add_calls w [] = w.
Proof. destruct w. unfold add_calls. simpl. by rewrite app_nil_r. Qed.

Lemma add_calls_app w cs1 cs2 :
  add_calls (add_calls w cs1) cs2 = add_calls w (cs1 ++ cs2).
Proof. unfold add_calls. simpl. by rewrite app_assoc. Qed.

(** [all] over checks that each make one call: every element is asked,
    in order, while the answers are true. *)
Lemma py_all_run_true {A} (f : A -> M bool) (p : A -> bool) (c : A -> call) :
  (forall x w, f x w = (Return (p x), add_calls w [c x])) ->
  forall xs w,
    Forall (fun x => p x = true) xs ->
    py_all f xs w = (Return true, add_calls w (map c xs)).
Proof.
  intros Hf xs. induction xs as [|x xs IH]; intros w Hall; simpl.
  - by rewrite add_calls_nil.
  - inversion Hall as [|? ? Hx Hxs]; subst.
    unfold mbind, M_bind, bind. rewrite Hf, Hx.
    rewrite (IH _ Hxs). by rewrite add_calls_app.
Qed.

(** [all] stops at the first false answer. *)
Lemma py_all_run_false {A} (f : A -> M bool) (p : A -> bool) (c : A -> call) :
  (forall x w, f x w = (Return (p x), add_calls w [c x])) ->
  forall pre r post w,
    Forall (fun x => p x = true) pre -> p r = false ->
    py_all f (pre ++ r :: post) w
      = (Return false, add_calls w (map c (pre ++ [r]))).
Proof.
  intros Hf pre. induction pre as [|x pre IH]; intros r post w Hall Hr; simpl.
  - unfold mbind, M_bind, bind. by rewrite Hf, Hr.
  - inversion Hall as [|? ? Hx Hpre]; subst.
    unfold mbind, M_bind, bind. rewrite Hf, Hx.
    rewrite (IH _ _ _ Hpre Hr). by rewrite add_calls_app.
Qed.

Lemma call_connection_run r w :
  call_is_authorized_connection (conn_method r) (conn_details r) None w
    = (Return (connection_passes r), add_calls w [connection_call r]).
Proof. reflexivity. Qed.

Lemma call_dag_run r w :
  call_is_authorized_dag (dag_method r) (dag_access_entity r)
    (dag_details r) None w
    = (Return (dag_passes r), add_calls w [dag_call r]).
Proof. reflexivity. Qed.

Lemma call_pool_run r w :
  call_is_authorized_pool (pool_method r) (pool_details r) None w
    = (Return (pool_passes r), add_calls w [pool_call r]).
Proof. reflexivity. Qed.

Lemma call_variable_run r w :
  call_is_authorized_variable (var_method r) (var_details r) None w
    = (Return (variable_passes r), add_calls w [variable_call r]).
Proof. reflexivity. Qed.

Lemma forallb_Permutation {A} (p : A -> bool) xs ys :
  xs ≡ₚ ys -> forallb p xs = forallb p ys.
Proof.
  induction 1 as [|x xs ys _ IH|x y xs|xs ys zs _ IH1 _ IH2]; simpl.
  - reflexivity.
  - by rewrite IH.
  - by rewrite !andb_assoc, (andb_comm (p y)).
  - by rewrite IH1.
Qed.
End Runs.

(** X1. A default batch check whose requests all pass asks the backend
    once per request, in the order of the sequence, each time without a
    user, and returns true; nothing is logged. *)
Theorem batch_asks_every_request `{BaseAuthManager} (w : world) :
  (forall requests,
      Forall (fun r => connection_passes r = true) requests ->
      batch_is_authorized_connection requests w
        = (Return true, add_calls w (map connection_call requests))) /\
  (forall requests,
      Forall (fun r => dag_passes r = true) requests ->
      batch_is_authorized_dag requests w
        = (Return true, add_calls w (map dag_call requests))) /\
  (forall requests,
      Forall (fun r => pool_passes r = true) requests ->
      batch_is_authorized_pool requests w
        = (Return true, add_calls w (map pool_call requests))) /\
  (forall requests,
      Forall (fun r => variable_passes r = true) requests ->
      batch_is_authorized_variable requests w
        = (Return true, add_calls w (map variable_call requests))).
Proof.
  repeat split_and; intros requests Hall.
  - by apply (py_all_run_true _ _ _ call_connection_run).
  - by apply (py_all_run_true _ _ _ call_dag_run).
  - by apply (py_all_run_true _ _ _ call_pool_run).
  - by apply (py_all_run_true _ _ _ call_variable_run).
Qed.

(** X2. A default batch check stops at the first request that is denied:
    it returns false, and the backend has been asked about the requests
    up to and including that one, never about a later one. *)
Theorem batch_stops_at_first_denial `{BaseAuthManager} (w : world) :
  (forall pre r post,
      Forall (fun r => connection_passes r = true) pre ->
      connection_passes r = false ->
      batch_is_authorized_connection (pre ++ r :: post) w
        = (Return false, add_calls w (map connection_call (pre ++ [r])))) /\
  (forall pre r post,
      Forall (fun r => dag_passes r = true) pre ->
      dag_passes r = false ->
      batch_is_authorized_dag (pre ++ r :: post) w
        = (Return false, add_calls w (map dag_call (pre ++ [r])))) /\
  (forall pre r post,
      Forall (fun r => pool_passes r = true) pre ->
      pool_passes r = false ->
      batch_is_authorized_pool (pre ++ r :: post) w
        = (Return false, add_calls w (map pool_call (pre ++ [r])))) /\
  (forall pre r post,
      Forall (fun r => variable_passes r = true) pre ->
      variable_passes r = false ->
      batch_is_authorized_variable (pre ++ r :: post) w
        = (Return false, add_calls w (map variable_call (pre ++ [r])))).
Proof.
  repeat split_and; intros pre r post Hpre Hr.
  - by apply (py_all_run_false _ _ _ call_connection_run).
  - by apply (py_all_run_false _ _ _ call_dag_run).
  - by apply (py_all_run_false _ _ _ call_pool_run).
  - by apply (py_all_run_false _ _ _ call_variable_run).
Qed.

(** X3. The answer of a default batch check does not depend on the order
    of the requests: a rearranged sequence gets the same answer. *)
Theorem batch_answer_order_free `{BaseAuthManager} (w : world) :
  (forall requests requests',
      requests ≡ₚ requests' ->
      value (batch_is_authorized_connection requests) w
        = value (batch_is_authorized_connection requests') w) /\
  (forall requests requests',
      requests ≡ₚ requests' ->
      value (batch_is_authorized_dag requests) w
        = value (batch_is_authorized_dag requests') w) /\
  (forall requests requests',
      requests ≡ₚ requests' ->
      value (batch_is_authorized_pool requests) w
        = value (batch_is_authorized_pool requests') w) /\
  (forall requests requests',
      requests ≡ₚ requests' ->
      value (batch_is_authorized_variable requests) w
        = value (batch_is_authorized_variable requests') w).
Proof.
  repeat split_and; intros requests requests' Hperm.
  - rewrite !batch_connection_yields. f_equal. by apply forallb_Permutation.
  - rewrite !batch_dag_yields. f_equal. by apply forallb_Permutation.
  - rewrite !batch_pool_yields. f_equal. by apply forallb_Permutation.
  - rewrite !batch_variable_yields. f_equal. by apply forallb_Permutation.
Qed.

(** X4. A default batch check accepts two sequences put end to end
    exactly when it accepts each of them. *)
Theorem batch_of_concatenation `{BaseAuthManager} (w : world) :
  (forall requests1 requests2,
      value (batch_is_authorized_connection (requests1 ++ requests2)) w
        = Return true <->
      value (batch_is_authorized_connection requests1) w = Return true /\
      value (batch_is_authorized_connection requests2) w = Return true) /\
  (forall requests1 requests2,
      value (batch_is_authorized_dag (requests1 ++ requests2)) w
        = Return true <->
      value (batch_is_authorized_dag requests1) w = Return true /\
      value (batch_is_authorized_dag requests2) w = Return true) /\
  (forall requests1 requests2,
      value (batch_is_authorized_pool (requests1 ++ requests2)) w
        = Return true <->
      value (batch_is_authorized_pool requests1) w = Return true /\
      value (batch_is_authorized_pool requests2) w = Return true) /\
  (forall requests1 requests2,
      value (batch_is_authorized_variable (requests1 ++ requests2)) w
        = Return true <->
      value (batch_is_authorized_variable requests1) w = Return true /\
      value (batch_is_authorized_variable requests2) w = Return true).
Proof.
  assert (Hret : forall b c : bool, Return b = Return c <-> b = c).
  { intros b c. split; [by intros [= ->] | by intros ->]. }
  repeat split_and; intros requests1 requests2.
  - rewrite !batch_connection_yields, !Hret, forallb_app.
    apply andb_true_iff.
  - rewrite !batch_dag_yields, !Hret, forallb_app. apply andb_true_iff.
  - rewrite !batch_pool_yields, !Hret, forallb_app. apply andb_true_iff.
  - rewrite !batch_variable_yields, !Hret, forallb_app. apply andb_true_iff.
Qed.

(** Requests on the connections [a] and [b], for the demo backend with
    bob in session: bob passes on [a] and is denied on [b]. *)
Lemma batch_asks_every_request_witness :
  let ra := mkConnectionRequest (H := demo (Some "bob")) GET (Some "a") None in
  Forall (fun r => connection_passes r = true) [ra; ra] /\
  batch_is_authorized_connection [ra; ra] (mkWorld [] [])
    = (Return true,
       add_calls (mkWorld [] []) (map connection_call [ra; ra])).
Proof.
  intros ra.
  assert (Hall : Forall (fun r => connection_passes r = true) [ra; ra]).
  { repeat constructor. }
  split; [exact Hall|].
  exact (proj1 (batch_asks_every_request (H := demo (Some "bob"))
                  (mkWorld [] [])) [ra; ra] Hall).
Defined.

Lemma batch_stops_at_first_denial_witness :
  let ra := mkConnectionRequest (H := demo (Some "bob")) GET (Some "a") None in
  let rb := mkConnectionRequest (H := demo (Some "bob")) PUT (Some "b") None in
  Forall (fun r => connection_passes r = true) [ra] /\
  connection_passes rb = false /\
  batch_is_authorized_connection ([ra] ++ rb :: [ra; rb]) (mkWorld [] [])
    = (Return false,
       add_calls (mkWorld [] []) (map connection_call ([ra] ++ [rb]))).
Proof.
  intros ra rb.
  assert (Hpre : Forall (fun r => connection_passes r = true) [ra]).
  { repeat constructor. }
  split; [exact Hpre|]. split; [reflexivity|].
  exact (proj1 (batch_stops_at_first_denial (H := demo (Some "bob"))
                  (mkWorld [] [])) [ra] rb [ra; rb] Hpre eq_refl).
Defined.

Lemma batch_answer_order_free_witness :
  let ra := mkConnectionRequest (H := demo (Some "bob")) GET (Some "a") None in
  let rb := mkConnectionRequest (H := demo (Some "bob")) PUT (Some "b") None in
  [ra; rb] ≡ₚ [rb; ra] /\
  value (batch_is_authorized_connection [ra; rb]) (mkWorld [] [])
    = value (batch_is_authorized_connection [rb; ra]) (mkWorld [] []).
Proof.
  intros ra rb.
  assert (Hperm : [ra; rb] ≡ₚ [rb; ra]) by apply perm_swap.
  split; [exact Hperm|].
  exact (proj1 (batch_answer_order_free (H := demo (Some "bob"))
                  (mkWorld [] [])) [ra; rb] [rb; ra] Hperm).
Defined.

(** ** The calls of the Dag filter *)

Section FilterRuns.
Context `{BaseAuthManager}.

(** The run of the GET-or-PUT condition, unscoped or for one id. *)
Lemma get_put_run methods details user w :
  py_or (py_and (ret (method_in GET methods))
                (call_is_authorized_dag GET None details user))
        (py_and (ret (method_in PUT methods))
                (call_is_authorized_dag PUT None details user)) w
  = (Return (method_in GET methods && is_authorized_dag GET None details user
             || method_in PUT methods
                && is_authorized_dag PUT None details user),
     add_calls w (get_put_calls methods details user)).
Proof.
  unfold get_put_calls, py_or, py_and, call_is_authorized_dag, record_call,
    mbind, M_bind, bind, mret, M_ret, ret, add_calls.
  destruct w as [cs ls].
  destruct (method_in GET methods), (method_in PUT methods),
    (is_authorized_dag GET None details user),
    (is_authorized_dag PUT None details user);
    simpl; rewrite <- ?app_assoc, ?app_nil_r; reflexivity.
Qed.

(** The run of the set comprehension over checks that record calls. *)
Lemma py_set_if_run (f : string -> M bool) (p : string -> bool)
    (tr : string -> list call) :
  (forall x w, f x w = (Return (p x), add_calls w (tr x))) ->
  forall xs w,
    py_set_if f xs w
    = (Return (list_to_set (base.filter (fun x => p x = true) xs)),
       add_calls w (flat_map tr xs)).
Proof.
  intros Hf xs. induction xs as [|x xs IH]; intros w; simpl.
  - by rewrite add_calls_nil.
  - unfold mbind, M_bind, bind in *. rewrite Hf, IH, add_calls_app.
    rewrite filter_cons. destruct (p x) eqn:Hp.
    + by rewrite decide_True.
    + by rewrite decide_False by discriminate.
Qed.

(** The whole run of [filter_permitted_dag_ids]. *)
Lemma filter_permitted_dag_ids_run dag_ids methods user w :
  let ms := effective_methods methods in
  filter_permitted_dag_ids dag_ids methods user w
  = (Return (if blanket ms user then dag_ids
             else list_to_set
                    (base.filter (fun d => permitted ms user d = true)
                       (elements dag_ids))),
     add_calls w
       (get_put_calls ms None user
        ++ (if blanket ms user then []
            else flat_map
                   (fun d => get_put_calls ms (Some (mkDagDetails d)) user)
                   (elements dag_ids)))).
Proof.
  intros ms. unfold filter_permitted_dag_ids. fold ms.
  unfold mbind at 1, M_bind at 1, bind at 1.
  rewrite get_put_run. fold (blanket ms user).
  destruct (blanket ms user).
  - by rewrite app_nil_r.
  - rewrite (py_set_if_run _ (permitted ms user)
               (fun d => get_put_calls ms (Some (mkDagDetails d)) user)).
    + by rewrite add_calls_app.
    + intros d w'. unfold _is_permitted_dag_id. apply get_put_run.
Qed.

Lemma get_put_calls_length methods details user :
  length (get_put_calls methods details user) <= 2.
Proof.
  unfold get_put_calls.
  destruct (method_in GET methods), (method_in PUT methods),
    (is_authorized_dag GET None details user); simpl; lia.
Qed.

Lemma get_put_calls_ok methods dag_ids details user :
  (details = None \/
   exists dag_id, dag_id ∈ dag_ids /\ details = Some (mkDagDetails dag_id)) ->
  Forall (filter_call_ok methods dag_ids user)
         (get_put_calls methods details user).
Proof.
  intros Hd. unfold get_put_calls.
  destruct (method_in GET methods) eqn:Hg, (method_in PUT methods) eqn:Hp,
    (is_authorized_dag GET None details user); simpl;
    repeat constructor;
    solve [ exists GET, details; repeat split; auto;
            by apply method_in_spec
          | exists PUT, details; repeat split; auto;
            by apply method_in_spec ].
Qed.

Lemma flat_map_length_le {A B} (f : A -> list B) n xs :
  (forall x, length (f x) <= n) ->
  length (flat_map f xs) <= n * length xs.
Proof.
  intros Hf. induction xs as [|x xs IH]; simpl; [lia|].
  rewrite length_app. specialize (Hf x). lia.
Qed.

Lemma Forall_flat_map_elem {A B} (P : B -> Prop) (f : A -> list B) xs :
  (forall x, x ∈ xs -> Forall P (f x)) -> Forall P (flat_map f xs).
Proof.
  intros Hf. induction xs as [|x xs IH]; simpl; [constructor|].
  apply Forall_app. split.
  - apply Hf. apply list_elem_of_here.
  - apply IH. intros y Hy. apply Hf. by apply list_elem_of_further.
Qed.
End FilterRuns.

(** X5. Every call that [filter_permitted_dag_ids] makes to the backend
    is an [is_authorized_dag] check for GET or PUT, the method being one
    of the methods in force, without access entity, for the very [user]
    it was given, and either without details or for an id of the input
    set; nothing is logged. *)
Theorem filter_permitted_dag_ids_calls `{BaseAuthManager}
    (dag_ids : gset string) (methods : option (list ResourceMethod))
    (user : option T) (w : world) :
  exists new,
    final (filter_permitted_dag_ids dag_ids methods user) w
      = add_calls w new /\
    Forall (filter_call_ok (effective_methods methods) dag_ids user) new.
Proof.
  eexists. split.
  - unfold final. by rewrite filter_permitted_dag_ids_run.
  - apply Forall_app. split.
    + apply get_put_calls_ok. by left.
    + destruct (blanket (effective_methods methods) user); [constructor|].
      apply Forall_flat_map_elem. intros d Hd.
      apply get_put_calls_ok. right. exists d. split; [|reflexivity].
      by apply elem_of_elements.
Qed.

(** X6. [filter_permitted_dag_ids] asks the backend at most twice
    without details and at most twice per id of the input set. *)
Theorem filter_permitted_dag_ids_call_bound `{BaseAuthManager}
    (dag_ids : gset string) (methods : option (list ResourceMethod))
    (user : option T) (w : world) :
  exists new,
    final (filter_permitted_dag_ids dag_ids methods user) w
      = add_calls w new /\
    length new <= 2 + 2 * size dag_ids.
Proof.
  eexists. split.
  - unfold final. by rewrite filter_permitted_dag_ids_run.
  - rewrite length_app.
    pose proof (get_put_calls_length (effective_methods methods) None user).
    destruct (blanket (effective_methods methods) user); simpl; [lia|].
    pose proof (flat_map_length_le
                  (fun d => get_put_calls (effective_methods methods)
                              (Some (mkDagDetails d)) user)
                  2 (elements dag_ids)
                  (fun d => get_put_calls_length _ _ _)) as Hlen.
    unfold size, set_size. simpl. lia.
Qed.

(** X7. A user who passes the unscoped GET check, GET being among the
    methods in force, costs one backend call: [filter_permitted_dag_ids]
    returns the input set after this single call, PUT is not asked. *)
Theorem filter_permitted_dag_ids_blanket_get `{BaseAuthManager}
    (dag_ids : gset string) (methods : option (list ResourceMethod))
    (user : option T) (w : world) :
  GET ∈ effective_methods methods ->
  is_authorized_dag GET None None user = true ->
  filter_permitted_dag_ids dag_ids methods user w
    = (Return dag_ids, add_calls w [CallDag GET None None user]).
Proof.
  intros Hin Hauth. apply method_in_spec in Hin.
  rewrite filter_permitted_dag_ids_run. unfold blanket, get_put_calls.
  by rewrite Hin, Hauth.
Qed.

Lemma filter_permitted_dag_ids_blanket_get_witness :
  GET ∈ effective_methods None /\
  is_authorized_dag (BaseAuthManager := alice_session) GET None None None
    = true /\
  filter_permitted_dag_ids (H := alice_session) abc None None (mkWorld [] [])
    = (Return abc, add_calls (mkWorld [] []) [CallDag GET None None None]).
Proof.
  assert (Hin : GET ∈ effective_methods None).
  { simpl. apply list_elem_of_further, list_elem_of_here. }
  split; [exact Hin|]. split; [reflexivity|].
  exact (filter_permitted_dag_ids_blanket_get (H := alice_session)
           abc None None (mkWorld [] []) Hin eq_refl).
Defined.

(** X8. On the empty set of ids [filter_permitted_dag_ids] returns the
    empty set, whatever the methods, the user and the backend. *)
Theorem filter_permitted_dag_ids_empty `{BaseAuthManager}
    (methods : option (list ResourceMethod)) (user : option T) (w : world) :
  value (filter_permitted_dag_ids ∅ methods user) w = Return ∅.
Proof.
  rewrite filter_permitted_dag_ids_yields.
  destruct (blanket (effective_methods methods) user); [reflexivity|].
  by rewrite elements_empty.
Qed.

(** X9. Filtering is idempotent: filtering the set that
    [filter_permitted_dag_ids] returned, with the same methods and user,
    returns that set again. *)
Theorem filter_permitted_dag_ids_idempotent `{BaseAuthManager}
    (dag_ids result : gset string) (methods : option (list ResourceMethod))
    (user : option T) (w w' : world) :
  value (filter_permitted_dag_ids dag_ids methods user) w = Return result ->
  value (filter_permitted_dag_ids result methods user) w' = Return result.
Proof.
  rewrite !filter_permitted_dag_ids_yields.
  destruct (blanket (effective_methods methods) user).
  - by intros [= ->].
  - intros [= <-]. f_equal. apply set_eq. intros d.
    rewrite !elem_of_slow_path. tauto.
Qed.

Lemma filter_permitted_dag_ids_idempotent_witness :
  value (H := demo (Some "bob"))
    (filter_permitted_dag_ids abc None None) (mkWorld [] []) = Return {[ "a" ]}
  /\
  value (H := demo (Some "bob"))
    (filter_permitted_dag_ids {[ "a" ]} None None) (mkWorld [] [])
    = Return {[ "a" ]}.
Proof.
  assert (Hrun : value (H := demo (Some "bob"))
                   (filter_permitted_dag_ids abc None None) (mkWorld [] [])
                 = Return {[ "a" ]}) by (vm_compute; reflexivity).
  split; [exact Hrun|].
  exact (filter_permitted_dag_ids_idempotent (H := demo (Some "bob"))
           abc {[ "a" ]} None None (mkWorld [] []) (mkWorld [] []) Hrun).
Defined.

(** X10. Filtering distributes over union: the ids permitted among two
    sets taken together are the ids permitted in the one with the ids
    permitted in the other. *)
Theorem filter_permitted_dag_ids_union `{BaseAuthManager}
    (dag_ids1 dag_ids2 : gset string)
    (methods : option (list ResourceMethod)) (user : option T) (w : world) :
  exists result1 result2 : gset string,
    value (filter_permitted_dag_ids dag_ids1 methods user) w
      = Return result1 /\
    value (filter_permitted_dag_ids dag_ids2 methods user) w
      = Return result2 /\
    value (filter_permitted_dag_ids (dag_ids1 ∪ dag_ids2) methods user) w
      = Return (result1 ∪ result2).
Proof.
  eexists. eexists.
  split; [apply filter_permitted_dag_ids_yields|].
  split; [apply filter_permitted_dag_ids_yields|].
  rewrite filter_permitted_dag_ids_yields.
  destruct (blanket (effective_methods methods) user); [reflexivity|].
  f_equal. apply set_eq. intros d.
  rewrite elem_of_union, !elem_of_slow_path, elem_of_union. tauto.
Qed.

(** X11. Asking for more methods never loses an id: when every method in
    force in one call is in force in another, on the same ids and user,
    the result of the first is included in the result of the second. *)
Theorem filter_permitted_dag_ids_more_methods `{BaseAuthManager}
    (dag_ids : gset string) (methods1 methods2 : option (list ResourceMethod))
    (user : option T) (w : world) :
  (forall method, method ∈ effective_methods methods1 ->
                  method ∈ effective_methods methods2) ->
  exists result1 result2 : gset string,
    value (filter_permitted_dag_ids dag_ids methods1 user) w
      = Return result1 /\
    value (filter_permitted_dag_ids dag_ids methods2 user) w
      = Return result2 /\
    result1 ⊆ result2.
Proof.
  intros Hsub. eexists. eexists.
  split; [apply filter_permitted_dag_ids_yields|].
  split; [apply filter_permitted_dag_ids_yields|].
  destruct (blanket (effective_methods methods1) user) eqn:Hb1.
  - assert (Hb2 : blanket (effective_methods methods2) user = true).
    { apply blanket_spec. apply blanket_spec in Hb1.
      destruct Hb1 as [[? ?]|[? ?]]; [left|right]; auto. }
    by rewrite Hb2.
  - intros d Hd. apply elem_of_slow_path in Hd as [Hd Hp].
    destruct (blanket (effective_methods methods2) user); [exact Hd|].
    apply elem_of_slow_path. split; [exact Hd|].
    apply permitted_spec. apply permitted_spec in Hp.
    destruct Hp as [[? ?]|[? ?]]; [left|right]; auto.
Qed.

Lemma filter_permitted_dag_ids_more_methods_witness :
  (forall method, method ∈ effective_methods (Some [GET]) ->
                  method ∈ effective_methods None) /\
  exists result1 result2 : gset string,
    value (H := demo (Some "bob"))
      (filter_permitted_dag_ids abc (Some [GET]) None) (mkWorld [] [])
      = Return result1 /\
    value (H := demo (Some "bob"))
      (filter_permitted_dag_ids abc None None) (mkWorld [] [])
      = Return result2 /\
    result1 ⊆ result2.
Proof.
  assert (Hsub : forall method, method ∈ effective_methods (Some [GET]) ->
                                method ∈ effective_methods None).
  { intros method Hin. simpl in *. apply list_elem_of_further.
    exact Hin. }
  split; [exact Hsub|].
  exact (filter_permitted_dag_ids_more_methods (H := demo (Some "bob"))
           abc (Some [GET]) None None (mkWorld [] []) Hsub).
Defined.

(** ** Enumeration followed by filtering *)

(** X12. When the enumeration of the Dag ids succeeds,
    [get_permitted_dag_ids] runs as [filter_permitted_dag_ids] on the
    set of the ids read, with the same methods and user; it returns, and
    every id it returns is an id of a row. *)
Theorem get_permitted_dag_ids_filters_rows `{BaseAuthManager}
    (session : rows) (methods : option (list ResourceMethod))
    (user : option T) (w : world) :
  enumeration_failure session = None ->
  get_permitted_dag_ids methods user session w
    = filter_permitted_dag_ids (row_ids session) methods user w /\
  exists result : gset string,
    value (get_permitted_dag_ids methods user session) w = Return result /\
    result ⊆ row_ids session.
Proof.
  intros Hok.
  pose proof (get_permitted_dag_ids_success session methods user w Hok) as Hrun.
  split; [exact Hrun|].
  eexists. split.
  - unfold value. rewrite Hrun. apply filter_permitted_dag_ids_yields.
  - destruct (blanket (effective_methods methods) user); [reflexivity|].
    intros d Hd. by apply elem_of_slow_path in Hd as [Hd _].
Qed.

Lemma get_permitted_dag_ids_filters_rows_witness :
  enumeration_failure abca_session = None /\
  get_permitted_dag_ids (H := demo (Some "bob")) None None abca_session
    (mkWorld [] [])
  = filter_permitted_dag_ids (H := demo (Some "bob")) (row_ids abca_session)
      None None (mkWorld [] []).
Proof.
  split; [reflexivity|].
  exact (proj1 (get_permitted_dag_ids_filters_rows (H := demo (Some "bob"))
                  abca_session None None (mkWorld [] []) eq_refl)).
Defined.

(** X13. Neither the order of the rows nor a row that comes twice
    matters for the result: on two enumerations that succeed with the
    same ids [get_permitted_dag_ids] returns the same set. *)
Theorem get_permitted_dag_ids_rows_as_set `{BaseAuthManager}
    (session1 session2 : rows) (methods : option (list ResourceMethod))
    (user : option T) (w : world) :
  enumeration_failure session1 = None ->
  enumeration_failure session2 = None ->
  row_ids session1 = row_ids session2 ->
  value (get_permitted_dag_ids methods user session1) w
    = value (get_permitted_dag_ids methods user session2) w.
Proof.
  intros Hok1 Hok2 Hids. unfold value.
  rewrite !get_permitted_dag_ids_success by assumption.
  by rewrite Hids.
Qed.

Lemma get_permitted_dag_ids_rows_as_set_witness :
  enumeration_failure abca_session = None /\
  enumeration_failure (Row "c" (Row "b" (Row "a" Done))) = None /\
  row_ids abca_session = row_ids (Row "c" (Row "b" (Row "a" Done))) /\
  value (H := demo (Some "bob"))
    (get_permitted_dag_ids None None abca_session) (mkWorld [] [])
  = value (H := demo (Some "bob"))
      (get_permitted_dag_ids None None (Row "c" (Row "b" (Row "a" Done))))
      (mkWorld [] []).
Proof.
  assert (Hids : row_ids abca_session
                 = row_ids (Row "c" (Row "b" (Row "a" Done)))).
  { apply set_eq. intros d. simpl.
    rewrite !elem_of_union, !elem_of_singleton, elem_of_empty. tauto. }
  split; [reflexivity|]. split; [reflexivity|]. split; [exact Hids|].
  exact (get_permitted_dag_ids_rows_as_set (H := demo (Some "bob"))
           abca_session (Row "c" (Row "b" (Row "a" Done))) None None
           (mkWorld [] []) eq_refl eq_refl Hids).
Defined.

(** X14. On a store without any Dag, [get_permitted_dag_ids] returns the
    empty set, whatever the methods, the user and the backend. *)
Theorem get_permitted_dag_ids_no_dags `{BaseAuthManager}
    (methods : option (list ResourceMethod)) (user : option T) (w : world) :
  value (get_permitted_dag_ids methods user Done) w = Return ∅.
Proof.
  unfold value.
  rewrite (get_permitted_dag_ids_success Done methods user w eq_refl).
  simpl. rewrite filter_permitted_dag_ids_run. simpl.
  destruct (blanket (effective_methods methods) user); [reflexivity|].
  by rewrite elements_empty.
Qed.

(** ** The id of the user in session *)

(** X15. [get_user_id] never returns an empty id: when it returns an id,
    this id is the non-empty id of the user in session, whose truth
    value is true; such a user whose id is empty gets [None], and
    nothing is raised or logged. *)
Theorem get_user_id_not_empty `{BaseAuthManager} (w : world) :
  (forall user_id,
      value get_user_id w = Return (Some user_id) ->
      user_id <> "" /\
      exists user,
        get_user = Some user /\ user_bool user = true /\
        get_id user = user_id) /\
  (forall user,
      get_user = Some user -> user_bool user = true -> get_id user = "" ->
      get_user_id w = (Return None, w)).
Proof.
  split.
  - intros user_id. unfold value, get_user_id, signed_in.
    destruct get_user as [user|]; [|discriminate].
    destruct (user_bool user) eqn:Htrue; [|discriminate].
    destruct (get_id user) as [|a s] eqn:Hid; simpl; [discriminate|].
    intros [= <-]. split; [discriminate|]. by exists user.
  - intros user Huser Htrue Hid. unfold get_user_id, signed_in.
    by rewrite Huser, Htrue, Hid.
Qed.

Lemma get_user_id_not_empty_witness :
  value (H := demo (Some "bob")) get_user_id (mkWorld [] [])
    = Return (Some "bob") /\
  "bob" <> "" /\
  get_user (BaseAuthManager := demo (Some "")) = Some "" /\
  user_bool (BaseAuthManager := demo (Some "")) "" = true /\
  get_user_id (H := demo (Some "")) (mkWorld [] [])
    = (Return None, mkWorld [] []).
Proof.
  split; [reflexivity|]. split.
  - exact (proj1 (proj1 (get_user_id_not_empty (H := demo (Some "bob"))
                           (mkWorld [] [])) "bob" eq_refl)).
  - split; [reflexivity|]. split; [reflexivity|].
    exact (proj2 (get_user_id_not_empty (H := demo (Some "")) (mkWorld [] []))
             "" eq_refl eq_refl eq_refl).
Defined.
